(** * azure-blob-uploader-downloader-reader.py: a shallow embedding

    The script is a thin, sequential wrapper around three kinds of calls into
    its surroundings: the process environment and the local file system
    ([os], [open]), the blob SDK ([BlobClient]) and [pandas].  None of these
    is part of the repository, so each of them is an oracle of the [World]
    record below: a call either returns a value or raises a Python exception.
    What the script itself does (which calls it makes, in which order, which
    exceptions it catches, what it prints and what it writes to disk) is the
    content of the definitions that follow, written operation by operation
    after the source.

    [os.path] is taken to be [posixpath]. *)

From Stdlib Require Import ZArith List Permutation DecimalString.
From Stdlib.Strings Require Import Ascii String Byte.
From stdpp Require Import base strings gmap.

Open Scope string_scope.
Open Scope list_scope.

(* ------------------------------------------------------------------------- *)
(** ** Python values the script handles *)

(** [bytes] objects. *)
Abbreviation bytes := (list byte).

(** The value of an exception's [response] attribute: some object that does
    or does not have a [status_code] attribute ([None] is one that doesn't). *)
Inductive Response :=
| NoStatus
| Status (code : Z).

(** An exception object [e] (an instance of [Exception], which is what the
    script's handlers catch), as far as the script inspects it: its class,
    the text [str(e)] that the f-strings interpolate, and the attribute
    [e.response] when [hasattr(e, 'response')] holds. *)
Record Exn := mkExn {
  exn_class : string;
  exn_str : string;
  exn_response : option Response
}.

(** The result of evaluating a Python call. *)
Inductive Outcome (A : Type) :=
| Return (a : A)
| Raise (e : Exn).
Arguments Return {A} a.
Arguments Raise {A} e.

(** One cell of a parsed table, and the table [pd.read_csv] returns. *)
Inductive Cell :=
| CInt (z : Z)
| CStr (s : string)
| CNaN.

Record DataFrame := mkFrame {
  columns : list string;
  rows : list (list Cell)
}.

(* ------------------------------------------------------------------------- *)
(** ** The surroundings *)

Record World := {
  os_getenv : string -> option string;             (* os.getenv(name) *)
  input_line : Outcome string;                      (* the line input() reads *)
  os_path_expanduser : string -> string;            (* os.path.expanduser *)
  os_path_isfile : string -> bool;                  (* os.path.isfile *)
  os_path_isdir : string -> bool;                   (* os.path.isdir *)
  os_listdir : string -> Outcome (list string);     (* os.listdir, in its order *)
  open_rb : string -> Outcome bytes;                (* open(p, "rb") and the data read *)
  open_wb : string -> Outcome unit;                 (* open(p, "wb") *)
  file_write : string -> bytes -> Outcome unit;     (* data.write(content) *)
  file_close : string -> Outcome unit;              (* data.close(), which flushes *)
  from_blob_url : string -> Outcome unit;           (* BlobClient.from_blob_url *)
  upload_blob : string -> bytes -> Outcome unit;    (* client.upload_blob(data, overwrite=True) *)
  download_readall : string -> Outcome bytes;       (* client.download_blob().readall() *)
  decode_error_text : bytes -> string;              (* str() of the UnicodeDecodeError *)
  pd_read_csv : string -> Outcome DataFrame         (* pd.read_csv(StringIO(text)) *)
}.

(** What an observer of a run sees, in order. *)
Inductive Event :=
| Print (text : string)                  (* print(text) *)
| PrintFrame (df : DataFrame)            (* print(df) *)
| Prompt (text : string)                 (* the prompt shown by input(text) *)
| CallUploadFile (local_file_path blob_path : string)  (* upload_file is entered *)
| Client (url : string)                  (* BlobClient.from_blob_url(blob_url=url) *)
| NetUpload (url : string) (data : bytes)   (* request sent by upload_blob *)
| NetDownload (url : string).            (* request sent by download_blob *)

(** The mutable part: the content of local files and the events so far. *)
Record Machine := mkMachine {
  disk : gmap string bytes;
  trace : list Event
}.

(** A file object open for writing, as the variable [data] holds it: the
    path it was opened on and the data written to it so far, which [close]
    has yet to flush.  The object is passed along explicitly. *)
Record FileObject := mkFile {
  fo_path : string;
  fo_pending : bytes
}.

(** Data put at the start of a file takes the place of as many of its
    bytes; what the file held beyond them stays. *)
Definition write_at_start (old data : bytes) : bytes :=
  data ++ skipn (List.length data) old.

(* ------------------------------------------------------------------------- *)
(** ** Procedures: state passing with exceptions *)

Definition Proc (A : Type) : Type := Machine -> Outcome A * Machine.

Definition ret {A} (a : A) : Proc A := fun m => (Return a, m).

Definition raise {A} (e : Exn) : Proc A := fun m => (Raise e, m).

Definition bind {A B} (c : Proc A) (k : A -> Proc B) : Proc B :=
  fun m =>
    match c m with
    | (Return a, m') => k a m'
    | (Raise e, m') => (Raise e, m')
    end.

Notation "x <- c1 ;; c2" := (bind c1 (fun x => c2))
  (at level 100, c1 at next level, right associativity).
Notation "c1 ;; c2" := (bind c1 (fun _ => c2))
  (at level 100, right associativity).

(** [try: body / except Exception as e: handler e].  The effects of the body
    up to the raise stay. *)
Definition try_except {A} (body : Proc A) (handler : Exn -> Proc A) : Proc A :=
  fun m =>
    match body m with
    | (Return a, m') => (Return a, m')
    | (Raise e, m') => handler e m'
    end.

Definition lift {A} (r : Outcome A) : Proc A := fun m => (r, m).

Definition emit (ev : Event) : Proc unit :=
  fun m => (Return tt, mkMachine (disk m) (trace m ++ [ev])).

Definition set_file (path : string) (content : bytes) : Proc unit :=
  fun m => (Return tt, mkMachine (<[path := content]> (disk m)) (trace m)).

(** The data reaches the file, from its start. *)
Definition flush_file (path : string) (data : bytes) : Proc unit :=
  fun m =>
    set_file path (write_at_start (default [] (disk m !! path)) data) m.

(** [for x in xs: body x] *)
Fixpoint for_each {A} (xs : list A) (body : A -> Proc unit) : Proc unit :=
  match xs with
  | [] => ret tt
  | x :: rest => body x ;; for_each rest body
  end.

Definition print (text : string) : Proc unit := emit (Print text).

(* ------------------------------------------------------------------------- *)
(** ** Library routines with a fixed meaning *)

Definition sep : ascii := "/"%char.

Definition endswith_sep (path : string) : bool :=
  match String.get (pred (String.length path)) path with
  | Some c => Ascii.eqb c sep
  | None => false
  end.

(** [posixpath.join(a, b)]:
    [if b.startswith(sep) or not path: path = b]
    [elif path.endswith(sep): path += b]
    [else: path += sep + b] *)
Definition path_join (a b : string) : string :=
  if String.prefix "/" b || String.eqb a "" then b
  else if endswith_sep a then a +:+ b
  else a +:+ "/" +:+ b.

(** [str(n)] for an integer. *)
Definition str_int (n : Z) : string := NilZero.string_of_int (Z.to_int n).

Definition in_range (lo hi b : N) : bool := (lo <=? b)%N && (b <=? hi)%N.

(** Well-formed UTF-8 (RFC 3629), which is what the strict ['utf-8'] codec
    accepts: shortest form only, no surrogates, nothing above U+10FFFF. *)
Fixpoint utf8_wf (bs : list N) : bool :=
  match bs with
  | [] => true
  | b0 :: t0 =>
    if (b0 <? 128)%N then utf8_wf t0
    else if in_range 194 223 b0 then
      match t0 with
      | b1 :: t1 => in_range 128 191 b1 && utf8_wf t1
      | _ => false
      end
    else if in_range 224 239 b0 then
      match t0 with
      | b1 :: b2 :: t2 =>
        in_range (if (b0 =? 224)%N then 160 else 128)
                 (if (b0 =? 237)%N then 159 else 191) b1
        && in_range 128 191 b2 && utf8_wf t2
      | _ => false
      end
    else if in_range 240 244 b0 then
      match t0 with
      | b1 :: b2 :: b3 :: t3 =>
        in_range (if (b0 =? 240)%N then 144 else 128)
                 (if (b0 =? 244)%N then 143 else 191) b1
        && in_range 128 191 b2 && in_range 128 191 b3 && utf8_wf t3
      | _ => false
      end
    else false
  end.

(** [content.decode('utf-8')].  A Python [str] is kept as the UTF-8 bytes of
    its code points, so decoding well-formed input changes the type only. *)
Definition decode_utf8 (w : World) (content : bytes) : Outcome string :=
  if utf8_wf (map Byte.to_N content)
  then Return (string_of_list_byte content)
  else Raise (mkExn "UnicodeDecodeError" (decode_error_text w content) None).

(** An f-string: literal pieces and interpolated values, put together in
    order with nothing added and nothing changed. *)
Inductive Piece :=
| Lit (text : string)
| Val (value : string).

Definition piece_text (p : Piece) : string :=
  match p with
  | Lit text => text
  | Val value => value
  end.

Definition fstring (pieces : list Piece) : string :=
  fold_right (fun p acc => piece_text p +:+ acc) "" pieces.

Definition nl : string := String (ascii_of_nat 10) "".

(** Truth value of what [os.getenv] returns: [None] and [''] are false. *)
Definition truthy (v : option string) : bool :=
  match v with
  | Some s => negb (String.eqb s "")
  | None => false
  end.

(* ------------------------------------------------------------------------- *)
(** ** The script *)

Section Script.

Context (w : World).

(** [BlobClient.from_blob_url(blob_url=url)]; the client is known by its URL. *)
Definition BlobClient_from_blob_url (url : string) : Proc string :=
  emit (Client url) ;; lift (from_blob_url w url) ;; ret url.

Definition client_upload_blob (blob_client : string) (data : bytes) : Proc unit :=
  emit (NetUpload blob_client data) ;; lift (upload_blob w blob_client data).

Definition client_download_readall (blob_client : string) : Proc bytes :=
  emit (NetDownload blob_client) ;; lift (download_readall w blob_client).

(** [open(path, "wb")] creates the file or cuts it to length zero, and
    gives the file object, positioned at the start. *)
Definition open_for_writing (path : string) : Proc FileObject :=
  lift (open_wb w path) ;; set_file path [] ;; ret (mkFile path []).

(** [data.write(content)]: the file object takes the data. *)
Definition file_object_write (data : FileObject) (content : bytes)
  : Proc FileObject :=
  lift (file_write w (fo_path data) content) ;;
  ret (mkFile (fo_path data) (fo_pending data ++ content)).

(** [data.close()]: what was written is flushed to the file.  What a
    failed [write] or [close] leaves of the data in the file is not
    modelled. *)
Definition file_object_close (data : FileObject) : Proc unit :=
  lift (file_close w (fo_path data)) ;;
  flush_file (fo_path data) (fo_pending data).

(** [with ... as data: body].  The file is closed on the way out, also when
    the body raises; an error of [close] then takes the place of the
    body's. *)
Definition with_file (data : FileObject) (body : FileObject -> Proc FileObject)
  : Proc unit :=
  fun m =>
    match body data m with
    | (Return data', m') => file_object_close data' m'
    | (Raise e, m') =>
      match file_object_close data m' with
      | (Return _, m'') => (Raise e, m'')
      | (Raise e', m'') => (Raise e', m'')
      end
    end.

(** [input(text)] *)
Definition input (text : string) : Proc string :=
  emit (Prompt text) ;; lift (input_line w).

(** The URL of lines 23, 48 and 70 (the same f-string three times). *)
Definition sas_url_of (sas_token container_name storage_account blob_path : string)
  : string :=
  fstring [Lit "https://"; Val storage_account; Lit ".blob.core.windows.net/";
           Val container_name; Lit "/"; Val blob_path; Lit "?"; Val sas_token].

Definition missing_variables : Exn :=
  mkExn "EnvironmentError"
        "One or more required environment variables are missing." None.

(** Lines 5-17.  Past the check each of the three values is a [str]. *)
Definition load_env_vars : Proc (string * string * string) :=
  let sas_token := os_getenv w "STORAGE_SAS_TOKEN_CHD" in
  let container_name := os_getenv w "CONTAINER_NAME_CHD" in
  let storage_account := os_getenv w "STORAGE_ACCOUNT_CHD" in
  if negb (forallb truthy [sas_token; container_name; storage_account])
  then raise missing_variables
  else ret (default "" sas_token, default "" container_name,
            default "" storage_account).

(** Lines 19-30.  The client is built before the [try]. *)
Definition upload_file
    (sas_token container_name storage_account local_file_path blob_path : string)
  : Proc unit :=
  emit (CallUploadFile local_file_path blob_path) ;;
  let sas_url := sas_url_of sas_token container_name storage_account blob_path in
  blob_client <- BlobClient_from_blob_url sas_url ;;
  try_except
    (data <- lift (open_rb w local_file_path) ;;
     client_upload_blob blob_client data ;;
     print (fstring [Lit "Upload completed successfully for "; Val blob_path;
                     Lit "!"]))
    (fun e =>
       print (fstring [Lit "Failed to upload "; Val blob_path; Lit ": ";
                       Val (exn_str e)])).

Definition recursion_error : Exn :=
  mkExn "RecursionError" "maximum recursion depth exceeded" None.

(** Lines 32-45.  [depth] is the number of frames the interpreter still
    allows; every call takes one. *)
Fixpoint upload_from_path (depth : nat)
    (sas_token container_name storage_account local_path blob_base_path : string)
  : Proc unit :=
  match depth with
  | O => raise recursion_error
  | S depth' =>
    if os_path_isfile w local_path then
      upload_file sas_token container_name storage_account local_path
                  blob_base_path
    else if os_path_isdir w local_path then
      items <- lift (os_listdir w local_path) ;;
      for_each items (fun item =>
        let item_full_path := path_join local_path item in
        let item_blob_path := path_join blob_base_path item in
        upload_from_path depth' sas_token container_name storage_account
                         item_full_path item_blob_path)
    else ret tt
  end.

Definition is_empty (content : bytes) : bool :=
  match content with
  | [] => true
  | _ :: _ => false
  end.

Definition no_status_code : Exn :=
  mkExn "AttributeError" "object has no attribute 'status_code'" None.

(** [e.response.status_code] *)
Definition response_status_code (r : Response) : Proc Z :=
  match r with
  | Status code => ret code
  | NoStatus => raise no_status_code
  end.

(** Lines 47-63. *)
Definition download_file
    (sas_token container_name storage_account blob_path local_file_path : string)
  : Proc unit :=
  let sas_url := sas_url_of sas_token container_name storage_account blob_path in
  blob_client <- BlobClient_from_blob_url sas_url ;;
  try_except
    (content <- client_download_readall blob_client ;;
     if is_empty content then
       print (fstring [Lit "The blob at "; Val blob_path;
                       Lit " is empty or could not be read."])
     else
       data <- open_for_writing local_file_path ;;
       with_file data (fun data =>
         data <- file_object_write data content ;;
         print (fstring [Lit "Download completed successfully for ";
                         Val blob_path; Lit "!"]) ;;
         ret data))
    (fun e =>
       print (fstring [Lit "Failed to download "; Val blob_path; Lit ": ";
                       Val (exn_str e)]) ;;
       match exn_response e with
       | Some response =>
         code <- response_status_code response ;;
         print (fstring [Lit "HTTP status code: "; Val (str_int code)])
       | None => ret tt
       end).

(** Lines 65-84. *)
Definition read_and_print_blob
    (sas_token container_name storage_account blob_path : string) : Proc unit :=
  let sas_url := sas_url_of sas_token container_name storage_account blob_path in
  blob_client <- BlobClient_from_blob_url sas_url ;;
  try_except
    (content <- client_download_readall blob_client ;;
     if is_empty content then
       print (fstring [Lit "The blob at "; Val blob_path;
                       Lit " is empty or could not be read."])
     else
       data_str <- lift (decode_utf8 w content) ;;
       df <- lift (pd_read_csv w data_str) ;;
       emit (PrintFrame df))
    (fun e =>
       print (fstring [Lit "Failed to read data from "; Val blob_path; Lit ": ";
                       Val (exn_str e)])).

Definition menu : string :=
  "Choose an option:" +:+ nl +:+ "1. Upload File" +:+ nl +:+ "2. Download File"
  +:+ nl +:+ "3. Read and Print File" +:+ nl +:+ "Enter choice (1, 2, or 3): ".

(** Lines 86-106; [depth] is the interpreter's recursion limit. *)
Definition main (depth : nat) : Proc unit :=
  env <- load_env_vars ;;
  let '(sas_token, container_name, storage_account) := env in
  choice <- input menu ;;
  if String.eqb choice "1" then
    let local_path := os_path_expanduser w "~/Downloads/test-may-2.csv" in
    let blob_base_path := "test-may-2.csv" in
    upload_from_path depth sas_token container_name storage_account local_path
                     blob_base_path
  else if String.eqb choice "2" then
    let local_path := os_path_expanduser w "~/Downloads/downloaded-test-may-2.csv" in
    let blob_path := "test-may-2.csv" in
    download_file sas_token container_name storage_account blob_path local_path
  else if String.eqb choice "3" then
    let blob_path := "test-may-2.csv" in
    read_and_print_blob sas_token container_name storage_account blob_path
  else print "Invalid choice.".

End Script.

(* ------------------------------------------------------------------------- *)
(** ** What is observed of a run *)

(** The [(local_file_path, blob_path)] of each call of [upload_file]. *)
Definition upload_calls (tr : list Event) : list (string * string) :=
  flat_map (fun ev =>
    match ev with
    | CallUploadFile local_file_path blob_path => [(local_file_path, blob_path)]
    | _ => []
    end) tr.

(** The requests handed to the SDK for sending. *)
Definition is_network_call (ev : Event) : bool :=
  match ev with
  | NetUpload _ _ | NetDownload _ => true
  | _ => false
  end.

Definition network_calls (tr : list Event) : list Event :=
  List.filter is_network_call tr.

(** The tables printed. *)
Definition printed_frames (tr : list Event) : list DataFrame :=
  flat_map (fun ev =>
    match ev with
    | PrintFrame df => [df]
    | _ => []
    end) tr.

(** The lines printed for a failed download: the message, then the status
    code when [e.response] has one. *)
Definition failure_report (blob_path : string) (e : Exn) : list Event :=
  Print ("Failed to download " +:+ blob_path +:+ ": " +:+ exn_str e)
  :: match exn_response e with
     | Some (Status code) => [Print ("HTTP status code: " +:+ str_int code)]
     | _ => []
     end.

(** The names whose value [load_env_vars] requires. *)
Definition required_variables : list string :=
  ["STORAGE_SAS_TOKEN_CHD"; "CONTAINER_NAME_CHD"; "STORAGE_ACCOUNT_CHD"].



(* ------------------------------------------------------------------------- *)
(** ** A reading of CSV text *)

Fixpoint split_on (c : ascii) (s : string) : list string :=
  match s with
  | EmptyString => [""]
  | String a rest =>
    match split_on c rest with
    | cur :: more =>
      if Ascii.eqb a c then "" :: cur :: more else String a cur :: more
    | [] => []
    end
  end.

Definition digit_value (a : ascii) : option Z :=
  let n := Z.of_N (N_of_ascii a) in
  if (48 <=? n)%Z && (n <=? 57)%Z then Some (n - 48)%Z else None.

Fixpoint numeral_value (acc : Z) (s : string) : option Z :=
  match s with
  | EmptyString => Some acc
  | String a rest =>
    match digit_value a with
    | Some d => numeral_value (10 * acc + d)%Z rest
    | None => None
    end
  end.

Definition parse_cell (s : string) : Cell :=
  if String.eqb s "" then CNaN
  else match numeral_value 0 s with
       | Some z => CInt z
       | None => CStr s
       end.

Fixpoint pad_row (n : nat) (r : list Cell) : list Cell :=
  match n with
  | O => []
  | S n' =>
    match r with
    | [] => CNaN :: pad_row n' []
    | c :: r' => c :: pad_row n' r'
    end
  end.

(** Modelled from the spec: [pd.read_csv] is pandas' code and is not in the
    repository.  The spec has the text parsed "as CSV into an in-memory
    tabular structure (columns inferred from header row)" and has malformed
    CSV raise.  Here: lines end at a newline and blank lines are skipped; the
    first line gives the column names, each later line one row of
    comma-separated cells; a cell that is a decimal numeral is an integer, an
    empty one is missing; text without a header line and a row with more
    cells than there are columns are errors. *)
Definition read_csv_model (text : string) : Outcome DataFrame :=
  match List.filter (fun l => negb (String.eqb l ""))
                    (split_on (ascii_of_nat 10) text) with
  | [] => Raise (mkExn "EmptyDataError" "No columns to parse from file" None)
  | header :: body =>
    let cols := split_on "," header in
    let table := map (fun l => map parse_cell (split_on "," l)) body in
    if forallb (fun r => Nat.leb (List.length r) (List.length cols)) table
    then Return (mkFrame cols (map (pad_row (List.length cols)) table))
    else Raise (mkExn "ParserError" "Error tokenizing data" None)
  end.

(** The eight bytes [b"a,b\n1,2\n"]. *)
Definition csv_example : bytes :=
  ["a"; ","; "b"; x0a; "1"; ","; "2"; x0a]%byte.

(* ------------------------------------------------------------------------- *)
(** ** Concrete surroundings, for running the script on examples *)

Fixpoint assoc {A} (key : string) (table : list (string * A)) : option A :=
  match table with
  | [] => None
  | (k, v) :: rest => if String.eqb k key then Some v else assoc key rest
  end.

Definition no_such_file (path : string) : Exn :=
  mkExn "FileNotFoundError"
        ("[Errno 2] No such file or directory: '" +:+ path +:+ "'") None.

Definition permission_denied (path : string) : Exn :=
  mkExn "PermissionError" ("[Errno 13] Permission denied: '" +:+ path +:+ "'")
        None.

(** A world given by tables: the environment, the regular files (with what
    opening each for reading gives), the directories (with their listing),
    and the three SDK calls.  Local files can be written, the user types [1],
    and [pd.read_csv] is the reading above. *)
Definition sample_world
    (env : list (string * string))
    (files : list (string * Outcome bytes))
    (dirs : list (string * list string))
    (client : string -> Outcome unit)
    (send : string -> bytes -> Outcome unit)
    (fetch : string -> Outcome bytes) : World :=
  {| os_getenv := fun name => assoc name env;
     input_line := Return "1";
     os_path_expanduser := fun p =>
       match p with
       | String "~" rest => "/home/user" +:+ rest
       | _ => p
       end;
     os_path_isfile := fun p => bool_decide (is_Some (assoc p files));
     os_path_isdir := fun p => bool_decide (is_Some (assoc p dirs));
     os_listdir := fun p =>
       match assoc p dirs with
       | Some names => Return names
       | None => Raise (no_such_file p)
       end;
     open_rb := fun p =>
       match assoc p files with
       | Some r => r
       | None => Raise (no_such_file p)
       end;
     open_wb := fun _ => Return tt;
     file_write := fun _ _ => Return tt;
     file_close := fun _ => Return tt;
     from_blob_url := client;
     upload_blob := send;
     download_readall := fetch;
     decode_error_text := fun _ =>
       "'utf-8' codec can't decode byte: invalid start byte";
     pd_read_csv := read_csv_model |}.

Definition any_client (url : string) : Outcome unit := Return tt.

(** [urlparse], which [from_blob_url] calls, refuses a host with an unmatched
    bracket: a storage account named [[] makes every URL of the script one. *)
Definition bracket_client (url : string) : Outcome unit :=
  if String.prefix "https://[" url
  then Raise (mkExn "ValueError" "Invalid IPv6 URL" None)
  else Return tt.

Definition send_ok (url : string) (data : bytes) : Outcome unit := Return tt.

Definition fetch_nothing (url : string) : Outcome bytes := Return [].

Definition fresh : Machine := mkMachine ∅ [].

(** [/data] holds [a.txt] and [sub/b.txt]; the listing gives [sub] first. *)
Definition tree_world : World :=
  sample_world []
    [("/data/a.txt", Return ["A"%byte]); ("/data/sub/b.txt", Return ["B"%byte])]
    [("/data", ["sub"; "a.txt"]); ("/data/sub", ["b.txt"])]
    any_client send_ok fetch_nothing.

Definition connection_lost : Exn :=
  mkExn "ServiceRequestError" "Connection aborted." None.

(** [/in] holds [x], [y] and [z]: [x] cannot be opened and the upload of [y]
    loses its connection. *)
Definition flaky_files : list (string * Outcome bytes) :=
  [("/in/x", Raise (permission_denied "/in/x")); ("/in/y", Return ["Y"%byte]);
   ("/in/z", Return ["Z"%byte])].

Definition flaky_send (url : string) (data : bytes) : Outcome unit :=
  if String.eqb url (sas_url_of "tok" "cont" "acct" "up/y")
  then Raise connection_lost else Return tt.

Definition flaky_world : World :=
  sample_world [] flaky_files [("/in", ["x"; "y"; "z"])]
    any_client flaky_send fetch_nothing.

(** The same directory where nothing fails. *)
Definition calm_world : World :=
  sample_world []
    [("/in/x", Return ["X"%byte]); ("/in/y", Return ["Y"%byte]);
     ("/in/z", Return ["Z"%byte])]
    [("/in", ["x"; "y"; "z"])]
    any_client send_ok fetch_nothing.

(** The same directory with three readable files, and a client that checks
    its URL. *)
Definition strict_world : World :=
  sample_world []
    [("/in/x", Return ["X"%byte]); ("/in/y", Return ["Y"%byte]);
     ("/in/z", Return ["Z"%byte])]
    [("/in", ["x"; "y"; "z"])]
    bracket_client send_ok fetch_nothing.

(** The account name is there, the container name is the empty string and
    the token is not set. *)
Definition half_configured_world : World :=
  sample_world [("STORAGE_ACCOUNT_CHD", "acct"); ("CONTAINER_NAME_CHD", "")]
    [] [] any_client send_ok fetch_nothing.

(** All three variables set, and the file that choice [1] uploads in place. *)
Definition configured_world : World :=
  sample_world
    [("STORAGE_SAS_TOKEN_CHD", "sv=1&sig=s"); ("CONTAINER_NAME_CHD", "cont");
     ("STORAGE_ACCOUNT_CHD", "acct")]
    [("/home/user/Downloads/test-may-2.csv", Return csv_example)] []
    any_client send_ok fetch_nothing.

Definition empty_blob_world : World :=
  sample_world [] [] [] any_client send_ok fetch_nothing.

Definition hello : bytes := ["h"; "i"]%byte.

Definition hello_world : World :=
  sample_world [] [] [] any_client send_ok (fun _ => Return hello).

(** A disk on which the destination of the download already exists. *)
Definition used : Machine :=
  mkMachine (<["/tmp/out.csv" := ["o"; "l"; "d"; "e"; "r"]%byte]> ∅) [].

Definition not_found_404 : Exn :=
  mkExn "ResourceNotFoundError" "The specified blob does not exist."
        (Some (Status 404)).

Definition missing_blob_world : World :=
  sample_world [] [] [] any_client send_ok (fun _ => Raise not_found_404).

(** The error the SDK's downloader raises when its retries are used up: an
    [HttpResponseError] built without a response, so [e.response] is [None]. *)
Definition incomplete_read : Exn :=
  mkExn "HttpResponseError" "IncompleteRead" (Some NoStatus).

Definition broken_stream_world : World :=
  sample_world [] [] [] any_client send_ok (fun _ => Raise incomplete_read).

Definition csv_world : World :=
  sample_world [] [] [] any_client send_ok (fun _ => Return csv_example).

(** A blob that is no UTF-8 text, and one that is text but no table. *)
Definition latin1_world : World :=
  sample_world [] [] [] any_client send_ok (fun _ => Return [xff; "a"]%byte).

Definition ragged : bytes := ["a"; x0a; "1"; ","; "2"; x0a]%byte.

Definition ragged_world : World :=
  sample_world [] [] [] any_client send_ok (fun _ => Return ragged).

(* ------------------------------------------------------------------------- *)
(** ** Further observations and surroundings *)

Definition is_download_request (ev : Event) : bool :=
  match ev with
  | NetDownload _ => true
  | _ => false
  end.

(** The download requests among the events. *)
Definition download_requests (tr : list Event) : list Event :=
  List.filter is_download_request tr.

(** The events of a single-file upload in which every step succeeds. *)
Definition upload_success_events
    (token container account local_file_path blob_path : string) (data : bytes)
  : list Event :=
  [CallUploadFile local_file_path blob_path;
   Client (sas_url_of token container account blob_path);
   NetUpload (sas_url_of token container account blob_path) data;
   Print ("Upload completed successfully for " +:+ blob_path +:+ "!")].

(** One line or one table on standard output. *)
Definition is_output (ev : Event) : bool :=
  match ev with
  | Print _ | PrintFrame _ => true
  | _ => false
  end.

(** The machine once [input(menu)] has shown the menu. *)
Definition prompted (m : Machine) : Machine :=
  mkMachine (disk m) (trace m ++ [Prompt menu]).

(** A world with another line on standard input. *)
Definition with_input (w : World) (line : Outcome string) : World :=
  {| os_getenv := os_getenv w;
     input_line := line;
     os_path_expanduser := os_path_expanduser w;
     os_path_isfile := os_path_isfile w;
     os_path_isdir := os_path_isdir w;
     os_listdir := os_listdir w;
     open_rb := open_rb w;
     open_wb := open_wb w;
     file_write := file_write w;
     file_close := file_close w;
     from_blob_url := from_blob_url w;
     upload_blob := upload_blob w;
     download_readall := download_readall w;
     decode_error_text := decode_error_text w;
     pd_read_csv := pd_read_csv w |}.

(** A world in which some directories cannot be listed. *)
Definition with_unreadable (w : World) (locked : list string) : World :=
  {| os_getenv := os_getenv w;
     input_line := input_line w;
     os_path_expanduser := os_path_expanduser w;
     os_path_isfile := os_path_isfile w;
     os_path_isdir := os_path_isdir w;
     os_listdir := fun p =>
       if existsb (String.eqb p) locked then Raise (permission_denied p)
       else os_listdir w p;
     open_rb := open_rb w;
     open_wb := open_wb w;
     file_write := file_write w;
     file_close := file_close w;
     from_blob_url := from_blob_url w;
     upload_blob := upload_blob w;
     download_readall := download_readall w;
     decode_error_text := decode_error_text w;
     pd_read_csv := pd_read_csv w |}.

(** A world in which some local files cannot be opened for writing. *)
Definition with_readonly (w : World) (readonly : list string) : World :=
  {| os_getenv := os_getenv w;
     input_line := input_line w;
     os_path_expanduser := os_path_expanduser w;
     os_path_isfile := os_path_isfile w;
     os_path_isdir := os_path_isdir w;
     os_listdir := os_listdir w;
     open_rb := open_rb w;
     open_wb := fun p =>
       if existsb (String.eqb p) readonly then Raise (permission_denied p)
       else open_wb w p;
     file_write := file_write w;
     file_close := file_close w;
     from_blob_url := from_blob_url w;
     upload_blob := upload_blob w;
     download_readall := download_readall w;
     decode_error_text := decode_error_text w;
     pd_read_csv := pd_read_csv w |}.

(** [/mix] lists a file, a subdirectory and a file; the subdirectory cannot
    be listed. *)
Definition mix_world : World :=
  with_unreadable
    (sample_world []
       [("/mix/a.txt", Return ["A"%byte]); ("/mix/z.txt", Return ["Z"%byte])]
       [("/mix", ["a.txt"; "sub"; "z.txt"]); ("/mix/sub", ["b.txt"])]
       any_client send_ok fetch_nothing)
    ["/mix/sub"].

(** [/in] with three readable files, and [/void] with nothing in it. *)
Definition calm_content (item : string) : bytes :=
  if String.eqb item "x" then ["X"%byte]
  else if String.eqb item "y" then ["Y"%byte]
  else ["Z"%byte].

Definition void_world : World :=
  sample_world [] [] [("/void", [])] any_client send_ok fetch_nothing.

Definition readonly_world : World := with_readonly hello_world ["/tmp/out.csv"].

(** [/data] as in [tree_world], seen through the client that checks its
    URL. *)
Definition strict_tree_world : World :=
  sample_world []
    [("/data/a.txt", Return ["A"%byte]); ("/data/sub/b.txt", Return ["B"%byte])]
    [("/data", ["sub"; "a.txt"]); ("/data/sub", ["b.txt"])]
    bracket_client send_ok fetch_nothing.

Definition no_space_left : Exn :=
  mkExn "OSError" "[Errno 28] No space left on device" None.

(** A world in which closing a written file fails at the flush. *)
Definition with_full_disk (w : World) : World :=
  {| os_getenv := os_getenv w;
     input_line := input_line w;
     os_path_expanduser := os_path_expanduser w;
     os_path_isfile := os_path_isfile w;
     os_path_isdir := os_path_isdir w;
     os_listdir := os_listdir w;
     open_rb := open_rb w;
     open_wb := open_wb w;
     file_write := file_write w;
     file_close := fun _ => Raise no_space_left;
     from_blob_url := from_blob_url w;
     upload_blob := upload_blob w;
     download_readall := download_readall w;
     decode_error_text := decode_error_text w;
     pd_read_csv := pd_read_csv w |}.

Definition full_disk_world : World := with_full_disk hello_world.

Definition end_of_input : Exn := mkExn "EOFError" "EOF when reading a line" None.

(* ------------------------------------------------------------------------- *)
(** ** Basic facts *)

Lemma append_empty_r (s : string) : s +:+ "" = s.
Proof.
  induction s as [|a s IH]; [reflexivity|].
  change (String a (s +:+ "") = String a s). now rewrite IH.
Qed.

Lemma upload_calls_app (tr1 tr2 : list Event) :
  upload_calls (tr1 ++ tr2) = upload_calls tr1 ++ upload_calls tr2.
Proof. apply flat_map_app. Qed.

(** Unfolds the procedures down to the oracles. *)
Ltac step_through :=
  unfold upload_file, download_file, read_and_print_blob,
    BlobClient_from_blob_url, client_upload_blob, client_download_readall,
    open_for_writing, with_file, file_object_write, file_object_close,
    flush_file, input, print, response_status_code,
    try_except, bind, emit, lift, ret, raise, set_file;
  simpl.

(** Brings a trace to the form [old ++ [e1; ...; en]] and a message to a
    plain concatenation. *)
Ltac tidy :=
  unfold fstring; simpl;
  rewrite ?append_empty_r, <- ?List.app_assoc; simpl.

(* ------------------------------------------------------------------------- *)
(** ** The URL *)

(** C4. The URL that the upload, the download and the read operation hand to
    the SDK is the concatenation of ["https://"], the account,
    [".blob.core.windows.net/"], the container, ["/"], the blob path, ["?"]
    and the token: every component stands in it as it was given, whatever
    characters it holds. *)
Theorem sas_url_exact_concatenation
    (w : World) (token container account blob_path local_path : string)
    (m : Machine) :
  let url := "https://" +:+ account +:+ ".blob.core.windows.net/" +:+ container
             +:+ "/" +:+ blob_path +:+ "?" +:+ token in
  sas_url_of token container account blob_path = url
  /\ (exists rest,
        trace (snd (upload_file w token container account local_path blob_path m))
        = trace m ++ CallUploadFile local_path blob_path :: Client url :: rest)
  /\ (exists rest,
        trace (snd (download_file w token container account blob_path local_path m))
        = trace m ++ Client url :: rest)
  /\ (exists rest,
        trace (snd (read_and_print_blob w token container account blob_path m))
        = trace m ++ Client url :: rest).
Proof.
  intros url.
  assert (E : sas_url_of token container account blob_path = url).
  { unfold sas_url_of, fstring, url; simpl. now rewrite append_empty_r. }
  split; [exact E|]. rewrite <- E. clear E url.
  repeat split.
  - step_through.
    destruct (from_blob_url w _) as [[]|e0]; simpl.
    + destruct (open_rb w local_path) as [data|e1]; simpl.
      * destruct (upload_blob w _ data) as [[]|e2]; simpl;
          eexists; tidy; reflexivity.
      * eexists; tidy; reflexivity.
    + eexists; tidy; reflexivity.
  - step_through.
    destruct (from_blob_url w _) as [[]|e0]; simpl.
    + destruct (download_readall w _) as [content|e1]; simpl.
      * destruct content as [|b content]; simpl.
        { eexists; tidy; reflexivity. }
        destruct (open_wb w local_path) as [[]|e2]; simpl.
        { destruct (file_write w local_path _) as [[]|e3]; simpl;
            destruct (file_close w local_path) as [[]|e4]; simpl;
            try match goal with
                | |- context [exn_response ?e] =>
                  destruct (exn_response e) as [[|code]|]; simpl
                end;
            eexists; tidy; reflexivity. }
        destruct (exn_response e2) as [[|code]|]; simpl;
          eexists; tidy; reflexivity.
      * destruct (exn_response e1) as [[|code]|]; simpl;
          eexists; tidy; reflexivity.
    + eexists; tidy; reflexivity.
  - step_through.
    destruct (from_blob_url w _) as [[]|e0]; simpl.
    + destruct (download_readall w _) as [content|e1]; simpl.
      * destruct content as [|b content]; simpl.
        { eexists; tidy; reflexivity. }
        destruct (decode_utf8 w (b :: content)) as [text|e2]; simpl.
        { destruct (pd_read_csv w text) as [df|e3]; simpl;
            eexists; tidy; reflexivity. }
        eexists; tidy; reflexivity.
      * eexists; tidy; reflexivity.
    + eexists; tidy; reflexivity.
Qed.

(* ------------------------------------------------------------------------- *)
(** ** The configuration loader *)

Lemma truthy_unset_or_empty (v : option string) :
  v = None \/ v = Some "" -> truthy v = false.
Proof. now intros [-> | ->]. Qed.

(** C3. When one of the three required variables is unset or is the empty
    string, [load_env_vars] raises the configuration error; [main] then ends
    with that error in the state it started in, so nothing was printed or
    asked and no request went to the network. *)
Theorem load_env_vars_rejects_missing
    (w : World) (depth : nat) (m : Machine) (name : string) :
  In name required_variables ->
  os_getenv w name = None \/ os_getenv w name = Some "" ->
  load_env_vars w m = (Raise missing_variables, m)
  /\ main w depth m = (Raise missing_variables, m)
  /\ network_calls (trace (snd (main w depth m))) = network_calls (trace m).
Proof.
  intros Hin Hval. apply truthy_unset_or_empty in Hval.
  assert (L : load_env_vars w m = (Raise missing_variables, m)).
  { unfold load_env_vars, required_variables in *. simpl in *.
    destruct Hin as [<- | [<- | [<- | []]]]; rewrite Hval; simpl;
      rewrite ?andb_false_r; reflexivity. }
  assert (M : main w depth m = (Raise missing_variables, m)).
  { unfold main, bind. now rewrite L. }
  now rewrite M.
Qed.

Lemma load_env_vars_rejects_missing_witness :
  load_env_vars half_configured_world fresh = (Raise missing_variables, fresh)
  /\ main half_configured_world 1000 fresh = (Raise missing_variables, fresh)
  /\ network_calls (trace (snd (main half_configured_world 1000 fresh)))
     = network_calls (trace fresh).
Proof.
  apply (load_env_vars_rejects_missing half_configured_world 1000 fresh
           "CONTAINER_NAME_CHD").
  - simpl. right; left; reflexivity.
  - right. reflexivity.
Defined.

(** A configured run of the whole script, the user choosing [1]. *)
Example main_upload_run :
  main configured_world 1000 fresh
  = (Return tt,
     mkMachine ∅
       [Prompt menu;
        CallUploadFile "/home/user/Downloads/test-may-2.csv" "test-may-2.csv";
        Client
          "https://acct.blob.core.windows.net/cont/test-may-2.csv?sv=1&sig=s";
        NetUpload
          "https://acct.blob.core.windows.net/cont/test-may-2.csv?sv=1&sig=s"
          csv_example;
        Print "Upload completed successfully for test-may-2.csv!"]).
Proof. vm_compute. reflexivity. Qed.

(* ------------------------------------------------------------------------- *)
(** ** Upload *)

(** C10. On a path that is neither a regular file nor a directory the
    recursive upload returns normally and leaves the state as it was: no
    upload call, no output, no error. *)
Theorem upload_from_path_skips_other_paths
    (w : World) (depth : nat) (m : Machine)
    (token container account local_path blob_base_path : string) :
  os_path_isfile w local_path = false ->
  os_path_isdir w local_path = false ->
  upload_from_path w (S depth) token container account local_path
                   blob_base_path m
  = (Return tt, m).
Proof.
  intros Hfile Hdir. simpl. now rewrite Hfile, Hdir.
Qed.

Lemma upload_from_path_skips_other_paths_witness :
  upload_from_path empty_blob_world 1 "tok" "cont" "acct" "/no/such/path"
                   "root" fresh
  = (Return tt, fresh).
Proof.
  apply (upload_from_path_skips_other_paths empty_blob_world 0 fresh);
    reflexivity.
Defined.

Lemma bind_returns {A B} (c : Proc A) (k : A -> Proc B) (m m1 : Machine) (a : A) :
  c m = (Return a, m1) -> bind c k m = k a m1.
Proof. intros H. unfold bind. now rewrite H. Qed.

Lemma upload_from_path_file
    (w : World) (depth : nat) (token container account local_path base : string) :
  os_path_isfile w local_path = true ->
  upload_from_path w (S depth) token container account local_path base
  = upload_file w token container account local_path base.
Proof. intros H. simpl. now rewrite H. Qed.

Lemma upload_from_path_dir
    (w : World) (depth : nat) (token container account local_path base : string)
    (items : list string) (m : Machine) :
  os_path_isfile w local_path = false ->
  os_path_isdir w local_path = true ->
  os_listdir w local_path = Return items ->
  upload_from_path w (S depth) token container account local_path base m
  = for_each items (fun item =>
      upload_from_path w depth token container account
                       (path_join local_path item) (path_join base item)) m.
Proof.
  intros Hf Hd Hl. simpl. rewrite Hf, Hd. unfold bind, lift. now rewrite Hl.
Qed.

(** Once the client is built, [upload_file] returns normally whatever
    happens to the file and to the request, and it is on record as one
    call. *)
Lemma upload_file_attempt
    (w : World) (token container account local_path blob_path : string)
    (m : Machine) :
  from_blob_url w (sas_url_of token container account blob_path) = Return tt ->
  exists m',
    upload_file w token container account local_path blob_path m = (Return tt, m')
    /\ disk m' = disk m
    /\ upload_calls (trace m')
       = upload_calls (trace m) ++ [(local_path, blob_path)].
Proof.
  intros Hc. step_through. rewrite Hc; simpl.
  destruct (open_rb w local_path) as [data|e1]; simpl.
  - destruct (upload_blob w _ data) as [[]|e2]; simpl;
      (eexists; split; [reflexivity|]; split; [reflexivity|]; simpl;
       rewrite !upload_calls_app; simpl; now rewrite !app_nil_r).
  - eexists; split; [reflexivity|]; split; [reflexivity|]; simpl.
    rewrite !upload_calls_app; simpl; now rewrite !app_nil_r.
Qed.

Example join_root_a : path_join "root" "a.txt" = "root/a.txt".
Proof. reflexivity. Qed.

Example join_root_sub_b :
  path_join (path_join "root" "sub") "b.txt" = "root/sub/b.txt".
Proof. reflexivity. Qed.

(** C1, as the code has it. Let [d] be a directory whose listing is [a.txt]
    and [sub] in either order, [a.txt] a regular file, [sub] a directory
    holding the one regular file [b.txt].  With the client built for both
    URLs, the recursive upload of [d] under [root] returns normally having
    called [upload_file] exactly twice, once for [root/a.txt] and once for
    [root/sub/b.txt]. *)
Theorem upload_from_path_mirrors_tree
    (w : World) (depth : nat) (m : Machine)
    (token container account d : string) (items : list string) :
  from_blob_url w (sas_url_of token container account "root/a.txt") = Return tt ->
  from_blob_url w (sas_url_of token container account "root/sub/b.txt")
    = Return tt ->
  os_path_isfile w d = false ->
  os_path_isdir w d = true ->
  os_listdir w d = Return items ->
  Permutation ["a.txt"; "sub"] items ->
  os_path_isfile w (path_join d "a.txt") = true ->
  os_path_isfile w (path_join d "sub") = false ->
  os_path_isdir w (path_join d "sub") = true ->
  os_listdir w (path_join d "sub") = Return ["b.txt"] ->
  os_path_isfile w (path_join (path_join d "sub") "b.txt") = true ->
  exists m' calls,
    upload_from_path w (S (S (S depth))) token container account d "root" m
    = (Return tt, m')
    /\ upload_calls (trace m') = upload_calls (trace m) ++ calls
    /\ Permutation calls
         [(path_join d "a.txt", "root/a.txt");
          (path_join (path_join d "sub") "b.txt", "root/sub/b.txt")].
Proof.
  intros Ca Cb Hd1 Hd2 Hl Hperm Ha Hs1 Hs2 Hsl Hb.
  rewrite (upload_from_path_dir w _ _ _ _ d "root" items m Hd1 Hd2 Hl).
  assert (RunA : forall m0, exists m1,
    upload_from_path w (S (S depth)) token container account
      (path_join d "a.txt") (path_join "root" "a.txt") m0 = (Return tt, m1)
    /\ upload_calls (trace m1)
       = upload_calls (trace m0) ++ [(path_join d "a.txt", "root/a.txt")]).
  { intros m0. rewrite (upload_from_path_file _ _ _ _ _ _ _ Ha), join_root_a.
    destruct (upload_file_attempt w token container account
                (path_join d "a.txt") "root/a.txt" m0 Ca) as (m1 & R & _ & C).
    now exists m1. }
  assert (RunS : forall m0, exists m1,
    upload_from_path w (S (S depth)) token container account
      (path_join d "sub") (path_join "root" "sub") m0 = (Return tt, m1)
    /\ upload_calls (trace m1)
       = upload_calls (trace m0)
         ++ [(path_join (path_join d "sub") "b.txt", "root/sub/b.txt")]).
  { intros m0.
    rewrite (upload_from_path_dir w _ _ _ _ _ _ ["b.txt"] m0 Hs1 Hs2 Hsl).
    cbn [for_each].
    rewrite (upload_from_path_file _ _ _ _ _ _ _ Hb), join_root_sub_b.
    destruct (upload_file_attempt w token container account
                (path_join (path_join d "sub") "b.txt") "root/sub/b.txt" m0 Cb)
      as (m1 & R & _ & C).
    exists m1. split; [|exact C].
    now rewrite (bind_returns _ _ m0 m1 tt R). }
  apply Permutation_length_2_inv in Hperm as [-> | ->]; cbn [for_each].
  - destruct (RunA m) as (m1 & R1 & C1). destruct (RunS m1) as (m2 & R2 & C2).
    exists m2, [(path_join d "a.txt", "root/a.txt");
                (path_join (path_join d "sub") "b.txt", "root/sub/b.txt")].
    split; [|split].
    + rewrite (bind_returns _ _ m m1 tt R1).
      now rewrite (bind_returns _ _ m1 m2 tt R2).
    + rewrite C2, C1, <- List.app_assoc. reflexivity.
    + reflexivity.
  - destruct (RunS m) as (m1 & R1 & C1). destruct (RunA m1) as (m2 & R2 & C2).
    exists m2, [(path_join (path_join d "sub") "b.txt", "root/sub/b.txt");
                (path_join d "a.txt", "root/a.txt")].
    split; [|split].
    + rewrite (bind_returns _ _ m m1 tt R1).
      now rewrite (bind_returns _ _ m1 m2 tt R2).
    + rewrite C2, C1, <- List.app_assoc. reflexivity.
    + apply perm_swap.
Qed.

Example upload_from_path_tree_run :
  upload_from_path tree_world 1000 "tok" "cont" "acct" "/data" "root" fresh
  = (Return tt,
     mkMachine ∅
       [CallUploadFile "/data/sub/b.txt" "root/sub/b.txt";
        Client "https://acct.blob.core.windows.net/cont/root/sub/b.txt?tok";
        NetUpload "https://acct.blob.core.windows.net/cont/root/sub/b.txt?tok"
                  ["B"%byte];
        Print "Upload completed successfully for root/sub/b.txt!";
        CallUploadFile "/data/a.txt" "root/a.txt";
        Client "https://acct.blob.core.windows.net/cont/root/a.txt?tok";
        NetUpload "https://acct.blob.core.windows.net/cont/root/a.txt?tok"
                  ["A"%byte];
        Print "Upload completed successfully for root/a.txt!"]).
Proof. vm_compute. reflexivity. Qed.

Lemma upload_from_path_mirrors_tree_witness :
  exists m' calls,
    upload_from_path tree_world 3 "tok" "cont" "acct" "/data" "root" fresh
    = (Return tt, m')
    /\ upload_calls (trace m') = upload_calls (trace fresh) ++ calls
    /\ Permutation calls
         [(path_join "/data" "a.txt", "root/a.txt");
          (path_join (path_join "/data" "sub") "b.txt", "root/sub/b.txt")].
Proof.
  apply (upload_from_path_mirrors_tree tree_world 0 fresh "tok" "cont" "acct"
           "/data" ["sub"; "a.txt"]); try reflexivity.
  apply perm_swap.
Defined.

(** C1 as stated fails where the client cannot be built: the tree is the
    one of the claim, but with the account name [[] the first call of
    [upload_file] raises, so there is one upload call and not two. *)
Lemma upload_from_path_tree_one_call :
  os_listdir strict_tree_world "/data" = Return ["sub"; "a.txt"]
  /\ os_listdir strict_tree_world "/data/sub" = Return ["b.txt"]
  /\ os_path_isfile strict_tree_world "/data/a.txt" = true
  /\ os_path_isfile strict_tree_world "/data/sub/b.txt" = true
  /\ upload_from_path strict_tree_world 1000 "tok" "cont" "[" "/data" "root"
                      fresh
     = (Raise (mkExn "ValueError" "Invalid IPv6 URL" None),
        mkMachine ∅
          [CallUploadFile "/data/sub/b.txt" "root/sub/b.txt";
           Client "https://[.blob.core.windows.net/cont/root/sub/b.txt?tok"]).
Proof. repeat split; vm_compute; reflexivity. Qed.








(** The whole run on [/in]: [x] and [y] fail, [z] is uploaded. *)
Example upload_from_path_flaky_run :
  upload_from_path flaky_world 1000 "tok" "cont" "acct" "/in" "up" fresh
  = (Return tt,
     mkMachine ∅
       [CallUploadFile "/in/x" "up/x";
        Client "https://acct.blob.core.windows.net/cont/up/x?tok";
        Print "Failed to upload up/x: [Errno 13] Permission denied: '/in/x'";
        CallUploadFile "/in/y" "up/y";
        Client "https://acct.blob.core.windows.net/cont/up/y?tok";
        NetUpload "https://acct.blob.core.windows.net/cont/up/y?tok" ["Y"%byte];
        Print "Failed to upload up/y: Connection aborted.";
        CallUploadFile "/in/z" "up/z";
        Client "https://acct.blob.core.windows.net/cont/up/z?tok";
        NetUpload "https://acct.blob.core.windows.net/cont/up/z?tok" ["Z"%byte];
        Print "Upload completed successfully for up/z!"]).
Proof. vm_compute. reflexivity. Qed.


(* ------------------------------------------------------------------------- *)
(** ** Download *)

(** C5. When the blob comes back with zero bytes, [download_file] prints the
    warning and returns normally: the disk is as it was (the destination is
    neither created nor cut), and nothing is reported as failed. *)
Theorem download_file_empty_blob
    (w : World) (m : Machine)
    (token container account blob_path local_file_path : string) :
  let url := sas_url_of token container account blob_path in
  from_blob_url w url = Return tt ->
  download_readall w url = Return [] ->
  download_file w token container account blob_path local_file_path m
  = (Return tt,
     mkMachine (disk m)
       (trace m ++
        [Client url; NetDownload url;
         Print ("The blob at " +:+ blob_path
                +:+ " is empty or could not be read.")])).
Proof.
  intros url Hc Hd. step_through. fold url. rewrite Hc; simpl.
  rewrite Hd; simpl. tidy. reflexivity.
Qed.

Lemma download_file_empty_blob_witness :
  download_file empty_blob_world "tok" "cont" "acct" "test-may-2.csv"
                "/tmp/out.csv" used
  = (Return tt,
     mkMachine (disk used)
       (trace used ++
        [Client (sas_url_of "tok" "cont" "acct" "test-may-2.csv");
         NetDownload (sas_url_of "tok" "cont" "acct" "test-may-2.csv");
         Print ("The blob at " +:+ "test-may-2.csv"
                +:+ " is empty or could not be read.")])).
Proof.
  apply (download_file_empty_blob empty_blob_world used); reflexivity.
Defined.

Lemma write_at_start_empty (data : bytes) : write_at_start [] data = data.
Proof. unfold write_at_start. now rewrite skipn_nil, app_nil_r. Qed.

(** C6, as the code has it. When the blob comes back with a non-empty
    content, and the destination can be opened for writing, written and
    closed without error, [download_file] leaves exactly that content at the
    destination path, in place of whatever the file held before; no other
    file changes, and the success line is printed. *)
Theorem download_file_writes_content
    (w : World) (m : Machine) (content : bytes)
    (token container account blob_path local_file_path : string) :
  let url := sas_url_of token container account blob_path in
  from_blob_url w url = Return tt ->
  download_readall w url = Return content ->
  content <> [] ->
  open_wb w local_file_path = Return tt ->
  file_write w local_file_path content = Return tt ->
  file_close w local_file_path = Return tt ->
  exists m',
    download_file w token container account blob_path local_file_path m
    = (Return tt, m')
    /\ disk m' = <[local_file_path := content]> (disk m)
    /\ disk m' !! local_file_path = Some content
    /\ (forall other, other <> local_file_path ->
          disk m' !! other = disk m !! other)
    /\ trace m'
       = trace m ++
         [Client url; NetDownload url;
          Print ("Download completed successfully for " +:+ blob_path +:+ "!")].
Proof.
  intros url Hc Hd Hne Ho Hw Hcl.
  step_through. fold url. rewrite Hc; simpl. rewrite Hd; simpl.
  destruct content as [|b content]; [congruence|]. simpl.
  rewrite Ho; simpl. rewrite Hw; simpl. rewrite Hcl; simpl.
  eexists. split; [reflexivity|]. simpl.
  rewrite lookup_insert_eq. simpl. rewrite write_at_start_empty.
  rewrite insert_insert_eq.
  split; [reflexivity|]. split; [apply lookup_insert_eq|].
  split.
  - intros other Hother. now apply lookup_insert_ne.
  - tidy. reflexivity.
Qed.

Lemma download_file_writes_content_witness :
  exists m',
    download_file hello_world "tok" "cont" "acct" "test-may-2.csv"
                  "/tmp/out.csv" used
    = (Return tt, m')
    /\ disk m' = <["/tmp/out.csv" := hello]> (disk used)
    /\ disk m' !! "/tmp/out.csv" = Some hello
    /\ (forall other, other <> "/tmp/out.csv" ->
          disk m' !! other = disk used !! other)
    /\ trace m'
       = trace used ++
         [Client (sas_url_of "tok" "cont" "acct" "test-may-2.csv");
          NetDownload (sas_url_of "tok" "cont" "acct" "test-may-2.csv");
          Print ("Download completed successfully for " +:+ "test-may-2.csv"
                 +:+ "!")].
Proof.
  apply (download_file_writes_content hello_world used hello);
    try reflexivity.
  discriminate.
Defined.

(** C6 as stated fails where the destination cannot be written: a
    non-empty content is retrieved, opening the destination raises, the
    failure is reported and the file keeps the bytes it had. *)
Lemma download_file_leaves_readonly_destination :
  download_readall readonly_world (sas_url_of "tok" "cont" "acct" "test-may-2.csv")
  = Return hello
  /\ hello <> []
  /\ download_file readonly_world "tok" "cont" "acct" "test-may-2.csv"
                   "/tmp/out.csv" used
     = (Return tt,
        mkMachine (disk used)
          [Client "https://acct.blob.core.windows.net/cont/test-may-2.csv?tok";
           NetDownload
             "https://acct.blob.core.windows.net/cont/test-may-2.csv?tok";
           Print "Failed to download test-may-2.csv: [Errno 13] Permission denied: '/tmp/out.csv'"])
  /\ disk used !! "/tmp/out.csv" = Some ["o"; "l"; "d"; "e"; "r"]%byte.
Proof.
  split; [reflexivity|]. split; [discriminate|].
  split; [|apply lookup_insert_eq].
  vm_compute. reflexivity.
Qed.

(** C7, as the code has it. Once the blob client is built, a download that
    fails with an error [e] whose [response], if it has one, carries a
    status code, is reported and contained: [download_file] prints
    [Failed to download <blob path>: <message>], then the status code when
    there is one, and returns normally with the disk as it was.  An error
    of the client's construction is not caught: [download_file] raises it,
    with nothing printed and no request sent. *)
Theorem download_failure_is_reported
    (w : World) (m : Machine)
    (token container account blob_path local_file_path : string) :
  let url := sas_url_of token container account blob_path in
  (forall e,
     from_blob_url w url = Return tt ->
     download_readall w url = Raise e ->
     exn_response e <> Some NoStatus ->
     download_file w token container account blob_path local_file_path m
     = (Return tt,
        mkMachine (disk m)
          (trace m ++ [Client url; NetDownload url]
           ++ failure_report blob_path e)))
  /\ (forall e,
     from_blob_url w url = Raise e ->
     download_file w token container account blob_path local_file_path m
     = (Raise e, mkMachine (disk m) (trace m ++ [Client url]))).
Proof.
  intros url. split.
  - intros e Hc Hd Hr. step_through. fold url. rewrite Hc; simpl.
    rewrite Hd; simpl. unfold failure_report.
    destruct (exn_response e) as [[|code]|]; [congruence| |]; simpl;
      tidy; reflexivity.
  - intros e Hc. step_through. fold url. now rewrite Hc.
Qed.

Lemma download_failure_is_reported_witness :
  download_file missing_blob_world "tok" "cont" "acct" "test-may-2.csv"
                "/tmp/out.csv" used
  = (Return tt,
     mkMachine (disk used)
       (trace used ++
        [Client (sas_url_of "tok" "cont" "acct" "test-may-2.csv");
         NetDownload (sas_url_of "tok" "cont" "acct" "test-may-2.csv")]
        ++ failure_report "test-may-2.csv" not_found_404))
  /\ download_file strict_world "tok" "cont" "[" "test-may-2.csv"
                   "/tmp/out.csv" used
     = (Raise (mkExn "ValueError" "Invalid IPv6 URL" None),
        mkMachine (disk used)
          (trace used ++ [Client (sas_url_of "tok" "cont" "[" "test-may-2.csv")])).
Proof.
  split.
  - apply (download_failure_is_reported missing_blob_world used);
      [reflexivity | reflexivity | discriminate].
  - apply (download_failure_is_reported strict_world used). reflexivity.
Defined.

Example download_missing_blob_run :
  download_file missing_blob_world "tok" "cont" "acct" "test-may-2.csv"
                "/tmp/out.csv" fresh
  = (Return tt,
     mkMachine ∅
       [Client "https://acct.blob.core.windows.net/cont/test-may-2.csv?tok";
        NetDownload "https://acct.blob.core.windows.net/cont/test-may-2.csv?tok";
        Print "Failed to download test-may-2.csv: The specified blob does not exist.";
        Print "HTTP status code: 404"]).
Proof. vm_compute. reflexivity. Qed.

(** The success line is printed inside the [with] block, before [close]
    flushes: when the flush fails, both lines are printed. *)
Example download_flush_failure_run :
  fst (download_file full_disk_world "tok" "cont" "acct" "test-may-2.csv"
                     "/tmp/out.csv" fresh) = Return tt
  /\ trace (snd (download_file full_disk_world "tok" "cont" "acct"
                   "test-may-2.csv" "/tmp/out.csv" fresh))
     = [Client "https://acct.blob.core.windows.net/cont/test-may-2.csv?tok";
        NetDownload "https://acct.blob.core.windows.net/cont/test-may-2.csv?tok";
        Print "Download completed successfully for test-may-2.csv!";
        Print "Failed to download test-may-2.csv: [Errno 28] No space left on device"].
Proof. split; vm_compute; reflexivity. Qed.

(** C7 as stated fails in two places.  An error whose [response] attribute
    is there but has no [status_code] (here [None], as on the SDK's error
    for a stream cut short) makes the handler itself raise, after the
    message is printed; and an error of the client's construction (here the
    account name [[]) is raised before the [try] is entered. *)
Lemma download_failure_escapes :
  download_file broken_stream_world "tok" "cont" "acct" "test-may-2.csv"
                "/tmp/out.csv" fresh
  = (Raise no_status_code,
     mkMachine ∅
       [Client "https://acct.blob.core.windows.net/cont/test-may-2.csv?tok";
        NetDownload "https://acct.blob.core.windows.net/cont/test-may-2.csv?tok";
        Print "Failed to download test-may-2.csv: IncompleteRead"])
  /\ download_file strict_world "tok" "cont" "[" "test-may-2.csv"
                   "/tmp/out.csv" fresh
     = (Raise (mkExn "ValueError" "Invalid IPv6 URL" None),
        mkMachine ∅
          [Client "https://[.blob.core.windows.net/cont/test-may-2.csv?tok"]).
Proof. split; vm_compute; reflexivity. Qed.

(* ------------------------------------------------------------------------- *)
(** ** Read and print *)

Example decode_csv_example (w : World) :
  decode_utf8 w csv_example = Return ("a,b" +:+ nl +:+ "1,2" +:+ nl).
Proof. reflexivity. Qed.

Example read_csv_model_example :
  read_csv_model ("a,b" +:+ nl +:+ "1,2" +:+ nl)
  = Return (mkFrame ["a"; "b"] [[CInt 1; CInt 2]]).
Proof. reflexivity. Qed.

(** C8. For a blob whose content is the bytes of ["a,b\n1,2\n"], with
    [pd.read_csv] reading CSV as modelled, [read_and_print_blob] decodes the
    content, parses it into the table with the columns [a] and [b] and the
    single row [1, 2], prints that table and returns normally. *)
Theorem read_and_print_blob_example
    (w : World) (m : Machine) (token container account blob_path : string) :
  let url := sas_url_of token container account blob_path in
  from_blob_url w url = Return tt ->
  download_readall w url = Return csv_example ->
  (forall text, pd_read_csv w text = read_csv_model text) ->
  read_and_print_blob w token container account blob_path m
  = (Return tt,
     mkMachine (disk m)
       (trace m ++
        [Client url; NetDownload url;
         PrintFrame (mkFrame ["a"; "b"] [[CInt 1; CInt 2]])])).
Proof.
  intros url Hc Hd Hcsv. step_through. fold url. rewrite Hc; simpl.
  rewrite Hd. unfold csv_example at 1; simpl. rewrite Hcsv.
  change (string_of_list_byte csv_example) with ("a,b" +:+ nl +:+ "1,2" +:+ nl).
  rewrite read_csv_model_example. tidy. reflexivity.
Qed.

Lemma read_and_print_blob_example_witness :
  read_and_print_blob csv_world "tok" "cont" "acct" "test-may-2.csv" fresh
  = (Return tt,
     mkMachine (disk fresh)
       (trace fresh ++
        [Client (sas_url_of "tok" "cont" "acct" "test-may-2.csv");
         NetDownload (sas_url_of "tok" "cont" "acct" "test-may-2.csv");
         PrintFrame (mkFrame ["a"; "b"] [[CInt 1; CInt 2]])])).
Proof.
  apply (read_and_print_blob_example csv_world fresh); reflexivity.
Defined.

(** C9. When the blob's content is not empty and either is no UTF-8 text or
    is text that [pd.read_csv] rejects, with the error [e],
    [read_and_print_blob] prints [Failed to read data from <blob path>:
    <message of e>] and returns normally: no exception leaves it, no table
    is printed, the disk is as it was. *)
Theorem read_and_print_blob_bad_content
    (w : World) (m : Machine) (content : bytes) (e : Exn)
    (token container account blob_path : string) :
  let url := sas_url_of token container account blob_path in
  from_blob_url w url = Return tt ->
  download_readall w url = Return content ->
  content <> [] ->
  decode_utf8 w content = Raise e
  \/ (exists text,
        decode_utf8 w content = Return text /\ pd_read_csv w text = Raise e) ->
  let m' := mkMachine (disk m)
              (trace m ++
               [Client url; NetDownload url;
                Print ("Failed to read data from " +:+ blob_path +:+ ": "
                       +:+ exn_str e)]) in
  read_and_print_blob w token container account blob_path m = (Return tt, m')
  /\ printed_frames (trace m') = printed_frames (trace m).
Proof.
  intros url Hc Hd Hne Hbad m'. split.
  - step_through. fold url. rewrite Hc; simpl. rewrite Hd.
    destruct content as [|b content]; [congruence|]. simpl.
    destruct Hbad as [Hdec | (text & Hdec & Hcsv)]; rewrite Hdec; simpl.
    + unfold m'. tidy. reflexivity.
    + rewrite Hcsv; simpl. unfold m'. tidy. reflexivity.
  - unfold m', printed_frames. simpl. rewrite flat_map_app. simpl.
    now rewrite app_nil_r.
Qed.

Lemma read_and_print_blob_bad_content_witness :
  (let m' := mkMachine (disk fresh)
               (trace fresh ++
                [Client (sas_url_of "tok" "cont" "acct" "test-may-2.csv");
                 NetDownload (sas_url_of "tok" "cont" "acct" "test-may-2.csv");
                 Print ("Failed to read data from " +:+ "test-may-2.csv" +:+ ": "
                        +:+ "'utf-8' codec can't decode byte: invalid start byte")]) in
   read_and_print_blob latin1_world "tok" "cont" "acct" "test-may-2.csv" fresh
   = (Return tt, m')
   /\ printed_frames (trace m') = printed_frames (trace fresh))
  /\ (let m' := mkMachine (disk fresh)
                  (trace fresh ++
                   [Client (sas_url_of "tok" "cont" "acct" "test-may-2.csv");
                    NetDownload (sas_url_of "tok" "cont" "acct" "test-may-2.csv");
                    Print ("Failed to read data from " +:+ "test-may-2.csv"
                           +:+ ": " +:+ "Error tokenizing data")]) in
      read_and_print_blob ragged_world "tok" "cont" "acct" "test-may-2.csv" fresh
      = (Return tt, m')
      /\ printed_frames (trace m') = printed_frames (trace fresh)).
Proof.
  split.
  - apply (read_and_print_blob_bad_content latin1_world fresh [xff; "a"]%byte
             (mkExn "UnicodeDecodeError"
                "'utf-8' codec can't decode byte: invalid start byte" None));
      [reflexivity | reflexivity | discriminate | left; reflexivity].
  - apply (read_and_print_blob_bad_content ragged_world fresh ragged
             (mkExn "ParserError" "Error tokenizing data" None));
      [reflexivity | reflexivity | discriminate |].
    right. exists ("a" +:+ nl +:+ "1,2" +:+ nl). split; reflexivity.
Defined.

(* ------------------------------------------------------------------------- *)
(** ** Further properties: configuration and entry point *)

Lemma truthy_set (v : option string) :
  truthy v = true <-> exists s, v = Some s /\ s <> "".
Proof.
  destruct v as [s|]; simpl.
  - rewrite negb_true_iff, eqb_neq. split.
    + intros H. now exists s.
    + intros (s' & [= <-] & H). exact H.
  - split; [discriminate | intros (s & H & _); discriminate].
Qed.

Lemma load_env_vars_set (w : World) (m : Machine) (t c a : string) :
  os_getenv w "STORAGE_SAS_TOKEN_CHD" = Some t -> t <> "" ->
  os_getenv w "CONTAINER_NAME_CHD" = Some c -> c <> "" ->
  os_getenv w "STORAGE_ACCOUNT_CHD" = Some a -> a <> "" ->
  load_env_vars w m = (Return (t, c, a), m).
Proof.
  intros Ht Nt Hc Nc Ha Na. unfold load_env_vars.
  rewrite Ht, Hc, Ha. simpl.
  apply eqb_neq in Nt, Nc, Na. now rewrite Nt, Nc, Na.
Qed.

(** [load_env_vars] returns the triple (token, container, account), in this
    order, exactly when the three variables are set to these values and none
    of them is the empty string; whether it returns or raises, it leaves the
    state alone. *)
Theorem load_env_vars_returns_exactly
    (w : World) (m : Machine) (t c a : string) :
  (load_env_vars w m = (Return (t, c, a), m)
   <-> (os_getenv w "STORAGE_SAS_TOKEN_CHD" = Some t /\ t <> "")
       /\ (os_getenv w "CONTAINER_NAME_CHD" = Some c /\ c <> "")
       /\ (os_getenv w "STORAGE_ACCOUNT_CHD" = Some a /\ a <> ""))
  /\ snd (load_env_vars w m) = m.
Proof.
  split.
  - split.
    + unfold load_env_vars.
      destruct (forallb truthy _) eqn:E; simpl; [|discriminate].
      simpl in E. rewrite !andb_true_iff in E.
      destruct E as (Et & Ec & Ea & _).
      apply truthy_set in Et as (t' & Ht & Nt).
      apply truthy_set in Ec as (c' & Hc & Nc).
      apply truthy_set in Ea as (a' & Ha & Na).
      rewrite Ht, Hc, Ha. simpl. unfold ret. intros [= <- <- <-].
      repeat split; assumption.
    + intros ((Ht & Nt) & (Hc & Nc) & (Ha & Na)).
      now apply load_env_vars_set.
  - unfold load_env_vars. now destruct (negb _).
Qed.

(** With the configuration in place and a line read from standard input,
    [main] shows the menu and then is the operation the line selects, on the
    fixed paths: [1] the recursive upload of [~/Downloads/test-may-2.csv] to
    [test-may-2.csv], [2] the download of [test-may-2.csv] to
    [~/Downloads/downloaded-test-may-2.csv], [3] the reading of
    [test-may-2.csv]; on any other line it prints [Invalid choice.] and
    returns normally, with no request sent and the disk as it was. *)
Theorem main_dispatch
    (w : World) (depth : nat) (m : Machine) (t c a choice : string) :
  os_getenv w "STORAGE_SAS_TOKEN_CHD" = Some t -> t <> "" ->
  os_getenv w "CONTAINER_NAME_CHD" = Some c -> c <> "" ->
  os_getenv w "STORAGE_ACCOUNT_CHD" = Some a -> a <> "" ->
  input_line w = Return choice ->
  (choice = "1" ->
     main w depth m
     = upload_from_path w depth t c a
         (os_path_expanduser w "~/Downloads/test-may-2.csv") "test-may-2.csv"
         (prompted m))
  /\ (choice = "2" ->
     main w depth m
     = download_file w t c a "test-may-2.csv"
         (os_path_expanduser w "~/Downloads/downloaded-test-may-2.csv")
         (prompted m))
  /\ (choice = "3" ->
     main w depth m = read_and_print_blob w t c a "test-may-2.csv" (prompted m))
  /\ (choice <> "1" -> choice <> "2" -> choice <> "3" ->
     main w depth m
     = (Return tt,
        mkMachine (disk m) (trace m ++ [Prompt menu; Print "Invalid choice."]))).
Proof.
  intros Ht Nt Hc Nc Ha Na Hin.
  assert (Load := load_env_vars_set w m t c a Ht Nt Hc Nc Ha Na).
  unfold main.
  repeat split.
  - intros ->. rewrite (bind_returns _ _ m m (t, c, a) Load).
    unfold input at 1, bind at 1 2, emit, lift. rewrite Hin. reflexivity.
  - intros ->.
    rewrite (bind_returns _ _ m m (t, c, a) Load).
    unfold input at 1, bind at 1 2, emit, lift. rewrite Hin. reflexivity.
  - intros ->.
    rewrite (bind_returns _ _ m m (t, c, a) Load).
    unfold input at 1, bind at 1 2, emit, lift. rewrite Hin. reflexivity.
  - intros N1 N2 N3.
    rewrite (bind_returns _ _ m m (t, c, a) Load).
    unfold input at 1, bind at 1 2, emit, lift. rewrite Hin.
    apply eqb_neq in N1, N2, N3. rewrite N1, N2, N3.
    unfold print, emit. simpl. now rewrite <- List.app_assoc.
Qed.

Lemma main_dispatch_witness :
  main configured_world 1000 fresh
  = upload_from_path configured_world 1000 "sv=1&sig=s" "cont" "acct"
      (os_path_expanduser configured_world "~/Downloads/test-may-2.csv")
      "test-may-2.csv" (prompted fresh)
  /\ main (with_input configured_world (Return "upload")) 1000 fresh
     = (Return tt,
        mkMachine (disk fresh)
          (trace fresh ++ [Prompt menu; Print "Invalid choice."])).
Proof.
  split.
  - destruct (main_dispatch configured_world 1000 fresh "sv=1&sig=s" "cont"
                "acct" "1") as (D1 & _);
      [reflexivity | discriminate | reflexivity | discriminate | reflexivity
      | discriminate | reflexivity | now apply D1].
  - destruct (main_dispatch (with_input configured_world (Return "upload"))
                1000 fresh "sv=1&sig=s" "cont" "acct" "upload")
      as (_ & _ & _ & D4);
      [reflexivity | discriminate | reflexivity | discriminate | reflexivity
      | discriminate | reflexivity | apply D4; discriminate].
Defined.

(** When the configuration is in place and reading the choice raises (end of
    input, say), [main] ends with that error once the menu is shown: nothing
    else is printed, no request is sent and the disk is as it was. *)
Theorem main_input_error
    (w : World) (depth : nat) (m : Machine) (t c a : string) (e : Exn) :
  os_getenv w "STORAGE_SAS_TOKEN_CHD" = Some t -> t <> "" ->
  os_getenv w "CONTAINER_NAME_CHD" = Some c -> c <> "" ->
  os_getenv w "STORAGE_ACCOUNT_CHD" = Some a -> a <> "" ->
  input_line w = Raise e ->
  main w depth m = (Raise e, prompted m)
  /\ network_calls (trace (snd (main w depth m))) = network_calls (trace m).
Proof.
  intros Ht Nt Hc Nc Ha Na Hin.
  assert (Load := load_env_vars_set w m t c a Ht Nt Hc Nc Ha Na).
  assert (Run : main w depth m = (Raise e, prompted m)).
  { unfold main. rewrite (bind_returns _ _ m m (t, c, a) Load).
    unfold input at 1, bind at 1 2, emit, lift. rewrite Hin. reflexivity. }
  split; [exact Run|]. rewrite Run. simpl.
  unfold network_calls, prompted. simpl. rewrite List.filter_app. simpl.
  now rewrite app_nil_r.
Qed.

Lemma main_input_error_witness :
  main (with_input configured_world (Raise end_of_input)) 1000 fresh
  = (Raise end_of_input, prompted fresh)
  /\ network_calls
       (trace (snd (main (with_input configured_world (Raise end_of_input))
                         1000 fresh)))
     = network_calls (trace fresh).
Proof.
  apply (main_input_error (with_input configured_world (Raise end_of_input))
           1000 fresh "sv=1&sig=s" "cont" "acct");
    first [reflexivity | discriminate].
Defined.

(* ------------------------------------------------------------------------- *)
(** ** Further properties: the URL *)

Lemma append_assoc3 (s1 s2 s3 : string) :
  (s1 +:+ s2) +:+ s3 = s1 +:+ (s2 +:+ s3).
Proof.
  induction s1 as [|ch s1 IH]; [reflexivity|].
  change (String ch ((s1 +:+ s2) +:+ s3) = String ch (s1 +:+ (s2 +:+ s3))).
  now rewrite IH.
Qed.

(** Nothing in the URL is escaped, so it does not tell a [?] of the blob
    path from the one before the token: a blob path [p?q] with token [t]
    gives the very URL that the blob path [p] gives with token [q?t]. *)
Theorem sas_url_query_ambiguity
    (token container account p q : string) :
  sas_url_of token container account (p +:+ "?" +:+ q)
  = sas_url_of (q +:+ "?" +:+ token) container account p.
Proof.
  unfold sas_url_of, fstring. simpl. rewrite !append_empty_r.
  now rewrite !append_assoc3.
Qed.

(* ------------------------------------------------------------------------- *)
(** ** Further properties: upload *)

Lemma upload_file_sends
    (w : World) (m : Machine) (data : bytes)
    (token container account local_file_path blob_path : string) :
  from_blob_url w (sas_url_of token container account blob_path) = Return tt ->
  open_rb w local_file_path = Return data ->
  upload_blob w (sas_url_of token container account blob_path) data
    = Return tt ->
  upload_file w token container account local_file_path blob_path m
  = (Return tt,
     mkMachine (disk m)
       (trace m ++
        upload_success_events token container account local_file_path
                              blob_path data)).
Proof.
  intros Hc Ho Hu. step_through. rewrite Hc; simpl.
  rewrite Ho; simpl. rewrite Hu; simpl.
  unfold upload_success_events. tidy. reflexivity.
Qed.

(** When the client is built, the local file opens and yields [data], and
    the request succeeds, [upload_file] sends exactly [data] to the blob's
    URL, prints the success line and returns normally; the disk is as it
    was. *)
Theorem upload_file_success
    (w : World) (m : Machine) (data : bytes)
    (token container account local_file_path blob_path : string) :
  let url := sas_url_of token container account blob_path in
  from_blob_url w url = Return tt ->
  open_rb w local_file_path = Return data ->
  upload_blob w url data = Return tt ->
  upload_file w token container account local_file_path blob_path m
  = (Return tt,
     mkMachine (disk m)
       (trace m ++
        upload_success_events token container account local_file_path
                              blob_path data)).
Proof. intros url. apply upload_file_sends. Qed.

Lemma upload_file_success_witness :
  upload_file tree_world "tok" "cont" "acct" "/data/a.txt" "root/a.txt" fresh
  = (Return tt,
     mkMachine (disk fresh)
       (trace fresh ++
        upload_success_events "tok" "cont" "acct" "/data/a.txt" "root/a.txt"
                              ["A"%byte])).
Proof.
  apply (upload_file_success tree_world fresh ["A"%byte]); reflexivity.
Defined.

Lemma bind_raises {A B} (c : Proc A) (k : A -> Proc B) (m m1 : Machine) (e : Exn) :
  c m = (Raise e, m1) -> bind c k m = (Raise e, m1).
Proof. intros H. unfold bind. now rewrite H. Qed.

Lemma download_requests_app (tr1 tr2 : list Event) :
  download_requests (tr1 ++ tr2) = download_requests tr1 ++ download_requests tr2.
Proof. apply List.filter_app. Qed.

Lemma upload_file_local_only
    (w : World) (token container account local_file_path blob_path : string)
    (m : Machine) :
  let m' := snd (upload_file w token container account local_file_path
                             blob_path m) in
  disk m' = disk m
  /\ download_requests (trace m') = download_requests (trace m)
  /\ printed_frames (trace m') = printed_frames (trace m).
Proof.
  step_through.
  destruct (from_blob_url w _) as [[]|e0]; simpl.
  - destruct (open_rb w local_file_path) as [data|e1]; simpl.
    + destruct (upload_blob w _ data) as [[]|e2]; simpl;
        unfold printed_frames;
        rewrite !download_requests_app, !flat_map_app; simpl;
        now rewrite !app_nil_r.
    + unfold printed_frames.
      rewrite !download_requests_app, !flat_map_app; simpl.
      now rewrite !app_nil_r.
  - unfold printed_frames.
    rewrite !download_requests_app, !flat_map_app; simpl.
    now rewrite !app_nil_r.
Qed.

(** Whatever the surroundings do and however it ends, a recursive upload
    writes no local file, sends no download request and prints no table. *)
Theorem upload_from_path_local_only
    (w : World) (depth : nat) (m : Machine)
    (token container account local_path blob_base_path : string) :
  let m' := snd (upload_from_path w depth token container account local_path
                                  blob_base_path m) in
  disk m' = disk m
  /\ download_requests (trace m') = download_requests (trace m)
  /\ printed_frames (trace m') = printed_frames (trace m).
Proof.
  revert local_path blob_base_path m.
  induction depth as [|depth IH]; intros local_path base m; [now simpl|].
  cbn [upload_from_path].
  destruct (os_path_isfile w local_path); [apply upload_file_local_only|].
  destruct (os_path_isdir w local_path); [|now simpl].
  destruct (os_listdir w local_path) as [items|e];
    [|unfold bind, lift; now simpl].
  enough (Loop : forall m0,
    let m' := snd (for_each items (fun item =>
                upload_from_path w depth token container account
                  (path_join local_path item) (path_join base item)) m0) in
    disk m' = disk m0
    /\ download_requests (trace m') = download_requests (trace m0)
    /\ printed_frames (trace m') = printed_frames (trace m0)).
  { exact (Loop m). }
  clear m. induction items as [|item items IHitems]; intros m; [now simpl|].
  cbn [for_each]. unfold bind.
  pose proof (IH (path_join local_path item) (path_join base item) m) as Step.
  destruct (upload_from_path w depth token container account
              (path_join local_path item) (path_join base item) m)
    as [[[]|e] m1]; simpl in Step |- *.
  - destruct Step as (D & Q & F). specialize (IHitems m1). simpl in IHitems.
    destruct IHitems as (D' & Q' & F').
    repeat split; congruence.
  - exact Step.
Qed.

(** On a directory without entries the recursive upload returns normally
    and leaves the state as it was: no call, no output. *)
Theorem upload_from_path_empty_directory
    (w : World) (depth : nat) (m : Machine)
    (token container account local_path blob_base_path : string) :
  os_path_isfile w local_path = false ->
  os_path_isdir w local_path = true ->
  os_listdir w local_path = Return [] ->
  upload_from_path w (S depth) token container account local_path
                   blob_base_path m
  = (Return tt, m).
Proof.
  intros Hf Hd Hl.
  now rewrite (upload_from_path_dir w _ _ _ _ _ _ [] m Hf Hd Hl).
Qed.

Lemma upload_from_path_empty_directory_witness :
  upload_from_path void_world 1 "tok" "cont" "acct" "/void" "root" fresh
  = (Return tt, fresh).
Proof.
  apply (upload_from_path_empty_directory void_world 0 fresh); reflexivity.
Defined.

(** The listing of a directory is read outside any handler: when a child of
    [d] is a directory that cannot be listed, the recursive upload of [d]
    ends with that error.  The regular files listed before the child have
    been attempted, the entries after it never are. *)
Theorem upload_from_path_unreadable_subdirectory
    (w : World) (depth : nat) (m : Machine) (e : Exn)
    (token container account d base bad : string) (before after : list string) :
  os_path_isfile w d = false ->
  os_path_isdir w d = true ->
  os_listdir w d = Return (before ++ bad :: after) ->
  (forall item, In item before ->
     os_path_isfile w (path_join d item) = true
     /\ from_blob_url w (sas_url_of token container account (path_join base item))
        = Return tt) ->
  os_path_isfile w (path_join d bad) = false ->
  os_path_isdir w (path_join d bad) = true ->
  os_listdir w (path_join d bad) = Raise e ->
  exists m',
    upload_from_path w (S (S depth)) token container account d base m
    = (Raise e, m')
    /\ upload_calls (trace m')
       = upload_calls (trace m)
         ++ map (fun item => (path_join d item, path_join base item)) before.
Proof.
  intros Hf Hd Hl Hbefore Hbf Hbd Hbl.
  rewrite (upload_from_path_dir w _ _ _ _ _ _ _ m Hf Hd Hl).
  clear Hl. revert m.
  induction before as [|item before IH]; intros m.
  - exists m. split; [|simpl; now rewrite app_nil_r].
    cbn [app for_each]. apply bind_raises.
    cbn [upload_from_path]. rewrite Hbf, Hbd.
    unfold bind, lift. now rewrite Hbl.
  - destruct (Hbefore item (or_introl eq_refl)) as [Hfile Hc].
    destruct (upload_file_attempt w token container account
                (path_join d item) (path_join base item) m Hc)
      as (m1 & Hrun & _ & Hcalls).
    destruct (IH (fun i Hi => Hbefore i (or_intror Hi)) m1)
      as (m2 & Hrest & Hcalls2).
    exists m2. split.
    + cbn [app for_each]. rewrite (bind_returns _ _ m m1 tt).
      { exact Hrest. }
      rewrite upload_from_path_file; [exact Hrun | exact Hfile].
    + rewrite Hcalls2, Hcalls, <- List.app_assoc. reflexivity.
Qed.

Lemma upload_from_path_unreadable_subdirectory_witness :
  exists m',
    upload_from_path mix_world 2 "tok" "cont" "acct" "/mix" "root" fresh
    = (Raise (permission_denied "/mix/sub"), m')
    /\ upload_calls (trace m')
       = upload_calls (trace fresh)
         ++ map (fun item => (path_join "/mix" item, path_join "root" item))
                ["a.txt"].
Proof.
  apply (upload_from_path_unreadable_subdirectory mix_world 0 fresh
           (permission_denied "/mix/sub") "tok" "cont" "acct" "/mix" "root"
           "sub" ["a.txt"] ["z.txt"]); try reflexivity.
  intros item [<- | []]. split; reflexivity.
Defined.

(** In a directory of regular files where every step succeeds (the client
    is built, the file opens and yields its content, the request succeeds),
    the recursive upload sends each file's own content to the URL of its
    name under the base path, one file after the other in the order of the
    listing, and returns normally. *)
Theorem upload_from_path_flat_directory
    (w : World) (depth : nat) (m : Machine) (content : string -> bytes)
    (token container account d base : string) (items : list string) :
  os_path_isfile w d = false ->
  os_path_isdir w d = true ->
  os_listdir w d = Return items ->
  (forall item, In item items ->
     let url := sas_url_of token container account (path_join base item) in
     os_path_isfile w (path_join d item) = true
     /\ from_blob_url w url = Return tt
     /\ open_rb w (path_join d item) = Return (content item)
     /\ upload_blob w url (content item) = Return tt) ->
  upload_from_path w (S (S depth)) token container account d base m
  = (Return tt,
     mkMachine (disk m)
       (trace m ++
        flat_map (fun item =>
          upload_success_events token container account (path_join d item)
                                (path_join base item) (content item)) items)).
Proof.
  intros Hf Hd Hl Hitems.
  rewrite (upload_from_path_dir w _ _ _ _ _ _ _ m Hf Hd Hl).
  clear Hl. revert m.
  induction items as [|item items IH]; intros m.
  - simpl. unfold ret. rewrite app_nil_r. now destruct m.
  - destruct (Hitems item (or_introl eq_refl)) as (Hfile & Hc & Ho & Hu).
    cbn [for_each flat_map].
    rewrite (bind_returns _ _ m _ tt
               (eq_trans
                  (f_equal (fun f => f m)
                     (upload_from_path_file w depth token container account _
                        _ Hfile))
                  (upload_file_sends w m (content item) token container account
                     _ _ Hc Ho Hu))).
    rewrite (IH (fun i Hi => Hitems i (or_intror Hi))). simpl.
    now rewrite <- List.app_assoc.
Qed.

Lemma upload_from_path_flat_directory_witness :
  upload_from_path calm_world 2 "tok" "cont" "acct" "/in" "up" fresh
  = (Return tt,
     mkMachine (disk fresh)
       (trace fresh ++
        flat_map (fun item =>
          upload_success_events "tok" "cont" "acct" (path_join "/in" item)
                                (path_join "up" item) (calm_content item))
          ["x"; "y"; "z"])).
Proof.
  apply (upload_from_path_flat_directory calm_world 0 fresh calm_content);
    try reflexivity.
  intros item [<- | [<- | [<- | []]]]; repeat split; reflexivity.
Defined.

(* ------------------------------------------------------------------------- *)
(** ** Further properties: download *)

Lemma network_calls_app (tr1 tr2 : list Event) :
  network_calls (tr1 ++ tr2) = network_calls tr1 ++ network_calls tr2.
Proof. apply List.filter_app. Qed.

(** Whatever the surroundings do and however it ends, [download_file]
    changes no local file but its destination, and sends one download
    request when the client is built, none otherwise, and nothing else. *)
Theorem download_file_footprint
    (w : World) (m : Machine)
    (token container account blob_path local_file_path : string) :
  let url := sas_url_of token container account blob_path in
  let m' := snd (download_file w token container account blob_path
                               local_file_path m) in
  (forall other, other <> local_file_path -> disk m' !! other = disk m !! other)
  /\ network_calls (trace m')
     = network_calls (trace m)
       ++ match from_blob_url w url with
          | Return _ => [NetDownload url]
          | Raise _ => []
          end.
Proof.
  intros url. step_through. fold url.
  destruct (from_blob_url w url) as [[]|e0]; simpl.
  2: { split; [reflexivity|]. rewrite network_calls_app. reflexivity. }
  destruct (download_readall w url) as [[|b content]|e1]; simpl.
  - split; [reflexivity|]. rewrite !network_calls_app. simpl.
    now rewrite !app_nil_r.
  - destruct (open_wb w local_file_path) as [[]|e2]; simpl.
    + destruct (file_write w local_file_path (b :: content)) as [[]|e3]; simpl;
        destruct (file_close w local_file_path) as [[]|e4]; simpl;
        try match goal with
            | |- context [exn_response ?e] =>
              destruct (exn_response e) as [[|code]|]; simpl
            end;
        (split;
         [intros other Hother; rewrite ?lookup_insert_ne by congruence;
          reflexivity
         |rewrite !network_calls_app; simpl; now rewrite !app_nil_r]).
    + destruct (exn_response e2) as [[|code]|]; simpl;
        (split; [reflexivity|]; rewrite !network_calls_app; simpl;
         now rewrite !app_nil_r).
  - destruct (exn_response e1) as [[|code]|]; simpl;
      (split; [reflexivity|]; rewrite !network_calls_app; simpl;
       now rewrite !app_nil_r).
Qed.

(** When a non-empty content was retrieved but the destination cannot be
    opened for writing, the error is reported like a failed download and
    [download_file] returns normally; the disk is as it was, so a file
    already at the destination keeps its content. *)
Theorem download_file_unwritable_destination
    (w : World) (m : Machine) (content : bytes) (e : Exn)
    (token container account blob_path local_file_path : string) :
  let url := sas_url_of token container account blob_path in
  from_blob_url w url = Return tt ->
  download_readall w url = Return content ->
  content <> [] ->
  open_wb w local_file_path = Raise e ->
  exn_response e <> Some NoStatus ->
  download_file w token container account blob_path local_file_path m
  = (Return tt,
     mkMachine (disk m)
       (trace m ++ [Client url; NetDownload url] ++ failure_report blob_path e)).
Proof.
  intros url Hc Hd Hne Ho Hr. step_through. fold url. rewrite Hc; simpl.
  rewrite Hd; simpl. destruct content as [|b content]; [congruence|]. simpl.
  rewrite Ho; simpl. unfold failure_report.
  destruct (exn_response e) as [[|code]|]; [congruence| |]; simpl;
    tidy; reflexivity.
Qed.

Lemma download_file_unwritable_destination_witness :
  download_file readonly_world "tok" "cont" "acct" "test-may-2.csv"
                "/tmp/out.csv" used
  = (Return tt,
     mkMachine (disk used)
       (trace used ++
        [Client (sas_url_of "tok" "cont" "acct" "test-may-2.csv");
         NetDownload (sas_url_of "tok" "cont" "acct" "test-may-2.csv")]
        ++ failure_report "test-may-2.csv" (permission_denied "/tmp/out.csv"))).
Proof.
  apply (download_file_unwritable_destination readonly_world used hello);
    first [reflexivity | discriminate].
Defined.



(* ------------------------------------------------------------------------- *)
(** ** Further properties: read and print *)

(** Once the client is built, [read_and_print_blob] always returns
    normally: it sends one download request, puts exactly one thing on
    standard output (a line or the table) and leaves the disk as it was,
    whatever the download, the decoding and the parsing do. *)
Theorem read_and_print_blob_contained
    (w : World) (m : Machine) (token container account blob_path : string) :
  let url := sas_url_of token container account blob_path in
  from_blob_url w url = Return tt ->
  exists ev,
    is_output ev = true
    /\ read_and_print_blob w token container account blob_path m
       = (Return tt,
          mkMachine (disk m) (trace m ++ [Client url; NetDownload url; ev])).
Proof.
  intros url Hc. step_through. fold url. rewrite Hc; simpl.
  destruct (download_readall w url) as [[|b content]|e1]; simpl.
  - eexists. split; [|tidy; reflexivity]. reflexivity.
  - destruct (decode_utf8 w (b :: content)) as [text|e2]; simpl.
    + destruct (pd_read_csv w text) as [df|e3]; simpl.
      * exists (PrintFrame df). split; [reflexivity|]. tidy. reflexivity.
      * eexists. split; [|tidy; reflexivity]. reflexivity.
    + eexists. split; [|tidy; reflexivity]. reflexivity.
  - eexists. split; [|tidy; reflexivity]. reflexivity.
Qed.

Lemma read_and_print_blob_contained_witness :
  exists ev,
    is_output ev = true
    /\ read_and_print_blob missing_blob_world "tok" "cont" "acct"
                           "test-may-2.csv" used
       = (Return tt,
          mkMachine (disk used)
            (trace used ++
             [Client (sas_url_of "tok" "cont" "acct" "test-may-2.csv");
              NetDownload (sas_url_of "tok" "cont" "acct" "test-may-2.csv");
              ev])).
Proof.
  apply (read_and_print_blob_contained missing_blob_world used). reflexivity.
Defined.

(** When the download request fails with an error [e],
    [read_and_print_blob] prints [Failed to read data from <blob path>:
    <message>] and nothing more: unlike [download_file] it never looks at
    [e.response], so no status code is printed and the handler cannot
    raise, whatever [e] carries. *)
Theorem read_and_print_blob_download_failure
    (w : World) (m : Machine) (e : Exn)
    (token container account blob_path : string) :
  let url := sas_url_of token container account blob_path in
  from_blob_url w url = Return tt ->
  download_readall w url = Raise e ->
  read_and_print_blob w token container account blob_path m
  = (Return tt,
     mkMachine (disk m)
       (trace m ++
        [Client url; NetDownload url;
         Print ("Failed to read data from " +:+ blob_path +:+ ": "
                +:+ exn_str e)])).
Proof.
  intros url Hc Hd. step_through. fold url. rewrite Hc; simpl.
  rewrite Hd; simpl. tidy. reflexivity.
Qed.

Lemma read_and_print_blob_download_failure_witness :
  read_and_print_blob broken_stream_world "tok" "cont" "acct" "test-may-2.csv"
                      fresh
  = (Return tt,
     mkMachine (disk fresh)
       (trace fresh ++
        [Client (sas_url_of "tok" "cont" "acct" "test-may-2.csv");
         NetDownload (sas_url_of "tok" "cont" "acct" "test-may-2.csv");
         Print ("Failed to read data from " +:+ "test-may-2.csv" +:+ ": "
                +:+ exn_str incomplete_read)]))
  /\ read_and_print_blob missing_blob_world "tok" "cont" "acct"
                         "test-may-2.csv" fresh
     = (Return tt,
        mkMachine (disk fresh)
          (trace fresh ++
           [Client (sas_url_of "tok" "cont" "acct" "test-may-2.csv");
            NetDownload (sas_url_of "tok" "cont" "acct" "test-may-2.csv");
            Print ("Failed to read data from " +:+ "test-may-2.csv" +:+ ": "
                   +:+ exn_str not_found_404)])).
Proof.
  split.
  - apply (read_and_print_blob_download_failure broken_stream_world fresh
             incomplete_read); reflexivity.
  - apply (read_and_print_blob_download_failure missing_blob_world fresh
             not_found_404); reflexivity.
Defined.

(** When the blob comes back with zero bytes, [read_and_print_blob] prints
    the same warning as the download does and returns normally: nothing is
    decoded or parsed and no table is printed. *)
Theorem read_and_print_blob_empty_blob
    (w : World) (m : Machine) (token container account blob_path : string) :
  let url := sas_url_of token container account blob_path in
  from_blob_url w url = Return tt ->
  download_readall w url = Return [] ->
  read_and_print_blob w token container account blob_path m
  = (Return tt,
     mkMachine (disk m)
       (trace m ++
        [Client url; NetDownload url;
         Print ("The blob at " +:+ blob_path
                +:+ " is empty or could not be read.")])).
Proof.
  intros url Hc Hd. step_through. fold url. rewrite Hc; simpl.
  rewrite Hd; simpl. tidy. reflexivity.
Qed.

Lemma read_and_print_blob_empty_blob_witness :
  read_and_print_blob empty_blob_world "tok" "cont" "acct" "test-may-2.csv"
                      fresh
  = (Return tt,
     mkMachine (disk fresh)
       (trace fresh ++
        [Client (sas_url_of "tok" "cont" "acct" "test-may-2.csv");
         NetDownload (sas_url_of "tok" "cont" "acct" "test-may-2.csv");
         Print ("The blob at " +:+ "test-may-2.csv"
                +:+ " is empty or could not be read.")])).
Proof.
  apply (read_and_print_blob_empty_blob empty_blob_world fresh); reflexivity.
Defined.

(** When the content is not empty, decodes as UTF-8 to [text] and
    [pd.read_csv] returns the table [df] for [text], [read_and_print_blob]
    prints exactly [df] and returns normally; nothing else is printed. *)
Theorem read_and_print_blob_prints_table
    (w : World) (m : Machine) (content : bytes) (text : string) (df : DataFrame)
    (token container account blob_path : string) :
  let url := sas_url_of token container account blob_path in
  from_blob_url w url = Return tt ->
  download_readall w url = Return content ->
  content <> [] ->
  decode_utf8 w content = Return text ->
  pd_read_csv w text = Return df ->
  read_and_print_blob w token container account blob_path m
  = (Return tt,
     mkMachine (disk m)
       (trace m ++ [Client url; NetDownload url; PrintFrame df])).
Proof.
  intros url Hc Hd Hne Hdec Hcsv. step_through. fold url. rewrite Hc; simpl.
  rewrite Hd. destruct content as [|b content]; [congruence|]. simpl.
  rewrite Hdec; simpl. rewrite Hcsv; simpl. tidy. reflexivity.
Qed.

Lemma read_and_print_blob_prints_table_witness :
  read_and_print_blob hello_world "tok" "cont" "acct" "test-may-2.csv" fresh
  = (Return tt,
     mkMachine (disk fresh)
       (trace fresh ++
        [Client (sas_url_of "tok" "cont" "acct" "test-may-2.csv");
         NetDownload (sas_url_of "tok" "cont" "acct" "test-may-2.csv");
         PrintFrame (mkFrame ["hi"] [])])).
Proof.
  apply (read_and_print_blob_prints_table hello_world fresh hello "hi"
           (mkFrame ["hi"] []));
    first [reflexivity | discriminate].
Defined.
